(** * The OS bootstrap shim of zig-sqlite (c/os.c)

  The source file defines the two lifecycle hooks the SQLite engine asks
  of an OS layer, [sqlite3_os_init] and [sqlite3_os_end].  Both talk to
  the outside only through two external functions, [sqlite3_demovfs]
  (the backend provider) and [sqlite3_vfs_register] (the engine's
  registry).  The hooks are embedded as small programs over those two
  calls; a host gives the calls their meaning on a world state. *)

From Stdlib Require Import ZArith List String Bool Lia.
Import ListNotations.
Local Open Scope Z_scope.

Set Implicit Arguments.

(** ** Programs over the external calls *)

Section Programs.

(** [sqlite3_vfs *]: the descriptor handle, opaque to the shim. *)
Variable vfs_ptr : Type.

(** The external functions os.c calls, with the type of their result:
    [extern sqlite3_vfs *sqlite3_demovfs(void)] and
    [int sqlite3_vfs_register(sqlite3_vfs*, int makeDflt)]. *)
Inductive ext_call : Type -> Type :=
  | call_demovfs : ext_call vfs_ptr
  | call_vfs_register (pVfs : vfs_ptr) (makeDflt : Z) : ext_call Z.

(** A C function body without loops: it returns, or performs an
    external call and goes on with the call's result. *)
Inductive prog (A : Type) : Type :=
  | Return (a : A)
  | Call (X : Type) (c : ext_call X) (k : X -> prog A).

Arguments Return {A} a.
Arguments Call {A X} c k.

Fixpoint bind {A B : Type} (p : prog A) (f : A -> prog B) : prog B :=
  match p with
  | Return a => f a
  | Call c k => Call c (fun x => bind (k x) f)
  end.

Definition call {X : Type} (c : ext_call X) : prog X := Call c Return.

(** What an observer of the external interface sees of one call. *)
Inductive event : Type :=
  | EvDemovfs (ret : vfs_ptr)
  | EvRegister (pVfs : vfs_ptr) (makeDflt : Z) (rc : Z).

(** The host: the two external functions as state transformers of a
    process-wide world [W]. *)
Record host (W : Type) : Type := {
  sqlite3_demovfs : W -> vfs_ptr * W;
  sqlite3_vfs_register : vfs_ptr -> Z -> W -> Z * W
}.

Record outcome (W A : Type) : Type := {
  retval : A;
  final : W;
  calls : list event
}.

Section Running.

Variable W : Type.
Variable E : host W.

Definition perform {X : Type} (c : ext_call X) (w : W) : X * W * event :=
  match c in ext_call T return T * W * event with
  | call_demovfs =>
      let r := sqlite3_demovfs E w in
      (fst r, snd r, EvDemovfs (fst r))
  | call_vfs_register pVfs makeDflt =>
      let r := sqlite3_vfs_register E pVfs makeDflt w in
      (fst r, snd r, EvRegister pVfs makeDflt (fst r))
  end.

Definition logged {A : Type} (e : event) (o : outcome W A) : outcome W A :=
  {| retval := retval o; final := final o; calls := e :: calls o |}.

(** Big-step run: result, final world and the calls made, in order. *)
Fixpoint run {A : Type} (p : prog A) (w : W) : outcome W A :=
  match p with
  | Return a => {| retval := a; final := w; calls := [] |}
  | Call c k =>
      let r := perform c w in
      logged (snd r) (run (k (fst (fst r))) (snd (fst r)))
  end.

(** The same run with a budget of steps, one per external call;
    [None] when the budget is used up before the body returns. *)
Fixpoint exec {A : Type} (fuel : nat) (p : prog A) (w : W) {struct p}
  : option (outcome W A) :=
  match p with
  | Return a => Some {| retval := a; final := w; calls := [] |}
  | Call c k =>
      match fuel with
      | O => None
      | S fuel' =>
          let r := perform c w in
          option_map (logged (snd r))
                     (exec fuel' (k (fst (fst r))) (snd (fst r)))
      end
  end.

End Running.

End Programs.

Arguments Return {vfs_ptr A} a.
Arguments Call {vfs_ptr A X} c k.
Arguments call_demovfs {vfs_ptr}.
Arguments call_vfs_register {vfs_ptr} pVfs makeDflt.

Declare Scope prog_scope.
Delimit Scope prog_scope with prog.
Notation "x <- p ;; q" := (bind p (fun x => q))
  (at level 61, p at next level, right associativity) : prog_scope.
Notation "p ;; q" := (bind p (fun _ => q))
  (at level 61, right associativity) : prog_scope.

(** ** os.c *)

Section Shim.

Variable vfs_ptr : Type.

Local Open Scope prog_scope.

(** [int sqlite3_os_init() { sqlite3_vfs_register(sqlite3_demovfs(), 0);
    return 0; }]: the argument is evaluated first, the status of the
    registration is dropped. *)
Definition sqlite3_os_init : prog vfs_ptr Z :=
  pVfs <- call call_demovfs ;;
  call (call_vfs_register pVfs 0) ;;
  Return 0.

(** [int sqlite3_os_end() { return 0; }] *)
Definition sqlite3_os_end : prog vfs_ptr Z :=
  Return 0.

End Shim.

Arguments sqlite3_os_init {vfs_ptr}.
Arguments sqlite3_os_end {vfs_ptr}.

(** ** Sequences of lifecycle calls *)

Inductive op : Type := OpInit | OpEnd.

Definition op_prog {vfs_ptr : Type} (o : op) : prog vfs_ptr Z :=
  match o with
  | OpInit => sqlite3_os_init
  | OpEnd => sqlite3_os_end
  end.

(** The hooks called one after the other, collecting every status. *)
Fixpoint run_history {vfs_ptr : Type} (h : list op) : prog vfs_ptr (list Z) :=
  match h with
  | [] => Return []
  | o :: h' =>
      (rc <- op_prog o ;;
       rest <- run_history h' ;;
       Return (rc :: rest))%prog
  end.

(** [n] rounds of [sqlite3_os_init(); sqlite3_os_end();]. *)
Fixpoint rounds (n : nat) : list op :=
  match n with
  | O => []
  | S n' => OpInit :: OpEnd :: rounds n'
  end.

(** The statuses [sqlite3_vfs_register] gave, as seen in a list of calls. *)
Fixpoint register_statuses {vfs_ptr : Type} (t : list (event vfs_ptr))
  : list Z :=
  match t with
  | [] => []
  | EvDemovfs _ :: t' => register_statuses t'
  | EvRegister _ _ rc :: t' => rc :: register_statuses t'
  end.

(** The flags [sqlite3_vfs_register] was given. *)
Fixpoint register_flags {vfs_ptr : Type} (t : list (event vfs_ptr))
  : list Z :=
  match t with
  | [] => []
  | EvDemovfs _ :: t' => register_flags t'
  | EvRegister _ makeDflt _ :: t' => makeDflt :: register_flags t'
  end.

(** The number of times the constructor was called. *)
Fixpoint demovfs_calls {vfs_ptr : Type} (t : list (event vfs_ptr)) : nat :=
  match t with
  | [] => O
  | EvDemovfs _ :: t' => S (demovfs_calls t')
  | EvRegister _ _ _ :: t' => demovfs_calls t'
  end.

(** *** Measures of a sequence of hook calls *)

Definition is_init (o : op) : bool :=
  match o with
  | OpInit => true
  | OpEnd => false
  end.

(** The number of [sqlite3_os_init] calls in a sequence. *)
Definition count_init (h : list op) : nat :=
  List.length (filter is_init h).

(** The sequence with its [sqlite3_os_end] calls left out. *)
Definition without_ends (h : list op) : list op :=
  filter is_init h.

(** A list of calls made of pairs: a constructor call, then the
    registration of the descriptor it returned, with flag 0. *)
Inductive init_pairs {vfs_ptr : Type} : list (event vfs_ptr) -> Prop :=
  | init_pairs_nil : init_pairs []
  | init_pairs_cons (p : vfs_ptr) (rc : Z) (t : list (event vfs_ptr)) :
      init_pairs t ->
      init_pairs (EvDemovfs p :: EvRegister p 0 rc :: t).

(** The host [E] with the status of its registration replaced by
    [status]; the effect on the world is that of [E]. *)
Definition with_status {vfs_ptr W : Type}
    (status : vfs_ptr -> Z -> W -> Z) (E : host vfs_ptr W)
  : host vfs_ptr W := {|
  sqlite3_demovfs := sqlite3_demovfs E;
  sqlite3_vfs_register := fun pVfs makeDflt w =>
    (status pVfs makeDflt w, snd (sqlite3_vfs_register E pVfs makeDflt w))
|}.

(** The world one call of [sqlite3_os_init] leaves. *)
Definition init_world {vfs_ptr W : Type} (E : host vfs_ptr W) (w : W) : W :=
  final (run E sqlite3_os_init w).

(** ** The lifecycle, on the host's side *)




(** ** The engine side: descriptor, registry, registration *)

Module Engine.

(** Modelled from the spec: the backend descriptor, [sqlite3_vfs] of
    sqlite3.h, which is not among the sources.  The spec (section 6 and
    scenario A) gives it a declared name and leaves the rest opaque. *)
Record sqlite3_vfs : Type := {
  zName : string;
  pAppData : Z
}.

(** Modelled from the spec: the registry, which the sources do not hold.
    The glossary has it as the table mapping backend names to backend
    descriptors, with which one is currently the default; section 7 lets
    a registration fail on an allocation failure in the registry, so the
    registry carries the room it has left for new entries. *)
Record registry : Type := {
  vfsTable : list (string * sqlite3_vfs);
  vfsDefault : option string;
  vfsRoom : nat
}.

Definition SQLITE_OK : Z := 0.
Definition SQLITE_NOMEM : Z := 7.

Definition named (n : string) (e : string * sqlite3_vfs) : bool :=
  String.eqb (fst e) n.

Definition unlink (n : string) (t : list (string * sqlite3_vfs))
  : list (string * sqlite3_vfs) :=
  filter (fun e => negb (named n e)) t.

Definition entries_named (n : string) (t : list (string * sqlite3_vfs))
  : nat :=
  List.length (filter (named n) t).

(** The flag of a registration: the default moves to the registered name
    when the flag is set (non-zero, as C reads an [int] flag). *)
Definition default_after (makeDflt : Z) (n : string) (d : option string)
  : option string :=
  if makeDflt =? 0 then d else Some n.

(** Modelled from the spec: [sqlite3_vfs_register], defined in the
    engine and not among the sources.  Section 6: it takes a descriptor
    and a flag saying whether the backend should become the default.
    Section 4.1: registering again under a name is tolerated and the last
    registration wins.  Section 7: it fails, leaving the registry as it
    was, when a new entry cannot be allocated. *)
Definition vfs_register (pVfs : sqlite3_vfs) (makeDflt : Z) (r : registry)
  : Z * registry :=
  let n := zName pVfs in
  if existsb (named n) (vfsTable r) then
    (SQLITE_OK,
     {| vfsTable := (n, pVfs) :: unlink n (vfsTable r);
        vfsDefault := default_after makeDflt n (vfsDefault r);
        vfsRoom := vfsRoom r |})
  else
    match vfsRoom r with
    | O => (SQLITE_NOMEM, r)
    | S room =>
        (SQLITE_OK,
         {| vfsTable := (n, pVfs) :: vfsTable r;
            vfsDefault := default_after makeDflt n (vfsDefault r);
            vfsRoom := room |})
    end.

(** The process-wide state: the engine's registry and the provider's
    static descriptor. *)
Record world : Type := {
  vfsList : registry;
  demovfs : sqlite3_vfs
}.

(** Modelled from the spec: the provider's constructor [sqlite3_demovfs]
    (section 4.1: a handle to a statically-provided backend descriptor),
    and the registration acting on the registry of the world. *)
Definition engine : host sqlite3_vfs world := {|
  sqlite3_demovfs := fun w => (demovfs w, w);
  sqlite3_vfs_register := fun pVfs makeDflt w =>
    let r := vfs_register pVfs makeDflt (vfsList w) in
    (fst r, {| vfsList := snd r; demovfs := demovfs w |})
|}.

(** The world after one call of a hook. *)
Definition after (o : op) (w : world) : world :=
  final (run engine (op_prog o) w).

Definition vfs_eqb (a b : sqlite3_vfs) : bool :=
  String.eqb (zName a) (zName b) && (pAppData a =? pAppData b).

(** The registry holds an entry for descriptor [d] under its name. *)
Definition registered (d : sqlite3_vfs) (r : registry) : bool :=
  existsb (fun e => String.eqb (fst e) (zName d) && vfs_eqb (snd e) d)
          (vfsTable r).

(** The entry of [d] is the one marked as the default. *)
Definition is_default (d : sqlite3_vfs) (r : registry) : Prop :=
  vfsDefault r = Some (zName d).

(** A list of calls holds a registration that asks for the default. *)
Definition requests_default (t : list (event sqlite3_vfs)) : Prop :=
  exists makeDflt, In makeDflt (register_flags t) /\ makeDflt <> 0.

(** The registrations of a run all succeeded. *)
Definition registered_ok (t : list (event sqlite3_vfs)) : bool :=
  forallb (Z.eqb SQLITE_OK) (register_statuses t).

(** At least one registration of a run succeeded. *)
Definition some_registered_ok (t : list (event sqlite3_vfs)) : bool :=
  existsb (Z.eqb SQLITE_OK) (register_statuses t).

(** *** Sample worlds *)

Definition demo_vfs : sqlite3_vfs := {| zName := "demo"; pAppData := 0 |}.
Definition unix_vfs : sqlite3_vfs := {| zName := "unix"; pAppData := 1 |}.

(** Nothing registered yet. *)
Definition w_fresh : world := {|
  vfsList := {| vfsTable := []; vfsDefault := None; vfsRoom := 4 |};
  demovfs := demo_vfs
|}.

(** Another backend is registered and is the default. *)
Definition w_unix : world := {|
  vfsList := {| vfsTable := [("unix"%string, unix_vfs)];
                vfsDefault := Some "unix"%string;
                vfsRoom := 3 |};
  demovfs := demo_vfs
|}.

(** The registry has no room left: a registration of a new name fails. *)
Definition w_full : world := {|
  vfsList := {| vfsTable := [("unix"%string, unix_vfs)];
                vfsDefault := Some "unix"%string;
                vfsRoom := 0 |};
  demovfs := demo_vfs
|}.

End Engine.

(** * Properties of the shim, for every host *)

Section ShimFacts.

Variable vfs_ptr : Type.
Variable W : Type.
Variable E : host vfs_ptr W.

Lemma run_bind (A B : Type) (p : prog vfs_ptr A) (f : A -> prog vfs_ptr B)
    (w : W) :
  run E (bind p f) w =
  {| retval := retval (run E (f (retval (run E p w))) (final (run E p w)));
     final := final (run E (f (retval (run E p w))) (final (run E p w)));
     calls := calls (run E p w)
              ++ calls (run E (f (retval (run E p w))) (final (run E p w))) |}.
Proof.
  revert w.
  induction p as [a | X c k IH]; intro w; cbn [bind run].
  - cbn [retval final calls app]. now destruct (run E (f a) w).
  - rewrite IH. reflexivity.
Qed.

(** The run of [sqlite3_os_init], call by call. *)
Lemma run_os_init (w : W) :
  let d := sqlite3_demovfs E w in
  let r := sqlite3_vfs_register E (fst d) 0 (snd d) in
  run E sqlite3_os_init w =
  {| retval := 0;
     final := snd r;
     calls := [EvDemovfs (fst d); EvRegister (fst d) 0 (fst r)] |}.
Proof. reflexivity. Qed.

Lemma run_os_end (w : W) :
  run E sqlite3_os_end w = {| retval := 0; final := w; calls := [] |}.
Proof. reflexivity. Qed.

Lemma retval_op (o : op) (w : W) : retval (run E (op_prog o) w) = 0.
Proof. destruct o; reflexivity. Qed.

Lemma retval_history (h : list op) :
  forall w : W, retval (run E (run_history h) w) = repeat 0 (List.length h).
Proof.
  induction h as [| o h IH]; intro w.
  - reflexivity.
  - cbn [run_history List.length repeat].
    rewrite run_bind. cbn [retval].
    rewrite run_bind. cbn [retval run].
    now rewrite retval_op, IH.
Qed.

Lemma length_rounds (n : nat) : List.length (rounds n) = (2 * n)%nat.
Proof. induction n as [| n IH]; cbn [rounds List.length]; lia. Qed.

(** C1. For every host and every state of it, whatever status the
    registration call gives there, [sqlite3_os_init] returns 0: the
    status of the registration has no part in the result. *)
Theorem os_init_returns_success (w : W) :
  retval (run E sqlite3_os_init w) = 0.
Proof. now rewrite run_os_init. Qed.

(** C3. [sqlite3_os_end] returns 0 in every state, leaves the state as
    it is and calls nothing outside. *)
Theorem os_end_is_a_no_op (w : W) :
  run E sqlite3_os_end w = {| retval := 0; final := w; calls := [] |}.
Proof. exact (run_os_end w). Qed.

(** C4. In the state that a call of [sqlite3_os_init] leaves, a call of
    [sqlite3_os_end] changes nothing: the state after it, the registry
    with it, is the state before it. *)
Theorem os_end_keeps_initialized_state (w : W) :
  final (run E sqlite3_os_end (final (run E sqlite3_os_init w)))
  = final (run E sqlite3_os_init w).
Proof. now rewrite run_os_end. Qed.

(** C5. For n >= 1 and every starting state, the n rounds of
    [sqlite3_os_init(); sqlite3_os_end();] give 2n statuses, all 0. *)
Theorem rounds_all_return_success (n : nat) (w : W) :
  (1 <= n)%nat ->
  retval (run E (run_history (rounds n)) w) = repeat 0 (2 * n).
Proof.
  intros _. now rewrite retval_history, length_rounds.
Qed.

(** C8. Both hooks return in every state, within a fixed number of
    steps: [sqlite3_os_init] after exactly two external calls (a budget
    below two does not reach its return, any budget from two on does),
    [sqlite3_os_end] after none. *)
Theorem hooks_return_in_bounded_steps (extra : nat) (w : W) :
  exec E (2 + extra) sqlite3_os_init w = Some (run E sqlite3_os_init w) /\
  exec E 1 sqlite3_os_init w = None /\
  exec E 0 sqlite3_os_init w = None /\
  exec E extra sqlite3_os_end w = Some (run E sqlite3_os_end w).
Proof.
  split; [reflexivity |].
  split; [reflexivity |].
  split; reflexivity.
Qed.

(** C9. A call of [sqlite3_os_init] calls the constructor
    [sqlite3_demovfs] once, first, and then hands the registry the very
    descriptor this call returned, with flag 0. *)
Theorem os_init_submits_the_constructed_descriptor (w : W) :
  demovfs_calls (calls (run E sqlite3_os_init w)) = 1%nat /\
  exists rc : Z,
    calls (run E sqlite3_os_init w) =
    [EvDemovfs (fst (sqlite3_demovfs E w));
     EvRegister (fst (sqlite3_demovfs E w)) 0 rc].
Proof.
  rewrite run_os_init. cbn [calls demovfs_calls].
  split; [reflexivity | eexists; reflexivity].
Qed.

End ShimFacts.

(** C10. The status of either hook is the same, 0, in any two runs,
    whatever the two hosts, their states and the calls made before. *)
Theorem hook_status_independent_of_state
    (P1 P2 W1 W2 : Type) (E1 : host P1 W1) (E2 : host P2 W2)
    (h1 h2 : list op) (w1 : W1) (w2 : W2) (o : op) :
  retval (run E1 (op_prog o) (final (run E1 (run_history h1) w1))) =
  retval (run E2 (op_prog o) (final (run E2 (run_history h2) w2))) /\
  retval (run E1 (op_prog o) (final (run E1 (run_history h1) w1))) = 0.
Proof. now rewrite !retval_op. Qed.

(** * Properties on the engine's registry *)

Module EngineFacts.

Import Engine.

Lemma vfs_eqb_refl (d : sqlite3_vfs) : vfs_eqb d d = true.
Proof.
  unfold vfs_eqb. now rewrite String.eqb_refl, Z.eqb_refl.
Qed.

Lemma named_refl (d : sqlite3_vfs) : named (zName d) (zName d, d) = true.
Proof. unfold named. cbn [fst]. apply String.eqb_refl. Qed.

Lemma entries_named_absent (n : string) (t : list (string * sqlite3_vfs)) :
  existsb (named n) t = false -> entries_named n t = 0%nat.
Proof.
  unfold entries_named.
  induction t as [| e t IH]; cbn [existsb filter]; intro H.
  - reflexivity.
  - apply orb_false_iff in H. destruct H as [He Ht].
    rewrite He. now apply IH.
Qed.

Lemma entries_named_unlink (n : string) (t : list (string * sqlite3_vfs)) :
  entries_named n (unlink n t) = 0%nat.
Proof.
  unfold entries_named, unlink.
  induction t as [| e t IH]; cbn [filter].
  - reflexivity.
  - destruct (named n e) eqn:He; cbn [negb filter].
    + exact IH.
    + now rewrite He.
Qed.

Lemma registered_head (d : sqlite3_vfs) (t : list (string * sqlite3_vfs))
    (dflt : option string) (room : nat) :
  registered d {| vfsTable := (zName d, d) :: t;
                  vfsDefault := dflt; vfsRoom := room |} = true.
Proof.
  unfold registered. cbn [vfsTable existsb fst snd].
  now rewrite String.eqb_refl, vfs_eqb_refl.
Qed.

(** The two ways a registration ends. *)
Lemma vfs_register_cases (d : sqlite3_vfs) (makeDflt : Z) (r : registry) :
  (fst (vfs_register d makeDflt r) = SQLITE_OK /\
   entries_named (zName d) (vfsTable (snd (vfs_register d makeDflt r))) = 1%nat /\
   existsb (named (zName d)) (vfsTable (snd (vfs_register d makeDflt r))) = true /\
   registered d (snd (vfs_register d makeDflt r)) = true)
  \/
  (fst (vfs_register d makeDflt r) = SQLITE_NOMEM /\
   snd (vfs_register d makeDflt r) = r /\
   existsb (named (zName d)) (vfsTable r) = false).
Proof.
  unfold vfs_register.
  destruct (existsb (named (zName d)) (vfsTable r)) eqn:Hin.
  - left. cbn [fst snd vfsTable]. repeat split.
    + unfold entries_named. cbn [filter]. rewrite named_refl.
      cbn [List.length]. f_equal. apply entries_named_unlink.
    + cbn [existsb]. now rewrite named_refl.
    + apply registered_head.
  - destruct (vfsRoom r) as [| room].
    + right. now repeat split.
    + left. cbn [fst snd vfsTable]. repeat split.
      * unfold entries_named. cbn [filter]. rewrite named_refl.
        cbn [List.length]. f_equal. now apply entries_named_absent.
      * cbn [existsb]. now rewrite named_refl.
      * apply registered_head.
Qed.

Lemma vfs_register_present (d : sqlite3_vfs) (makeDflt : Z) (r : registry) :
  existsb (named (zName d)) (vfsTable r) = true ->
  fst (vfs_register d makeDflt r) = SQLITE_OK.
Proof. unfold vfs_register. now intros ->. Qed.

(** [sqlite3_os_init] on the engine. *)
Lemma run_engine_init (w : world) :
  run engine sqlite3_os_init w =
  {| retval := 0;
     final := {| vfsList := snd (vfs_register (demovfs w) 0 (vfsList w));
                 demovfs := demovfs w |};
     calls := [EvDemovfs (demovfs w);
               EvRegister (demovfs w) 0
                          (fst (vfs_register (demovfs w) 0 (vfsList w)))] |}.
Proof. reflexivity. Qed.

Lemma registered_ok_init (w : world) :
  registered_ok (calls (run engine sqlite3_os_init w)) =
  (fst (vfs_register (demovfs w) 0 (vfsList w)) =? SQLITE_OK).
Proof.
  rewrite run_engine_init. unfold registered_ok.
  cbn [calls register_statuses forallb].
  now rewrite andb_true_r, Z.eqb_sym.
Qed.

(** The discarded status at work: the registration fails for want of
    room, and the hook reports success all the same. *)
Example init_in_full_registry :
  register_statuses (calls (run engine sqlite3_os_init w_full))
    = [SQLITE_NOMEM] /\
  retval (run engine sqlite3_os_init w_full) = 0.
Proof. split; reflexivity. Qed.

(** The first registration, on an empty registry. *)
Example init_in_fresh_registry :
  register_statuses (calls (run engine sqlite3_os_init w_fresh))
    = [SQLITE_OK] /\
  vfsTable (vfsList (after OpInit w_fresh)) = [("demo"%string, demo_vfs)].
Proof. split; reflexivity. Qed.

(** C2, as amended.  After a call of [sqlite3_os_init] whose registration
    succeeded, the registry holds an entry for the descriptor obtained
    from [sqlite3_demovfs]; the registration is submitted with flag 0,
    that is without a request to install the entry as the default. *)
Theorem init_registers_without_default_request (w : world) :
  registered_ok (calls (run engine sqlite3_os_init w)) = true ->
  registered (fst (sqlite3_demovfs engine w)) (vfsList (after OpInit w)) = true /\
  register_flags (calls (run engine sqlite3_os_init w)) = [0] /\
  ~ requests_default (calls (run engine sqlite3_os_init w)).
Proof.
  rewrite registered_ok_init. intro Hok. apply Z.eqb_eq in Hok.
  unfold after. cbn [op_prog]. rewrite run_engine_init.
  cbn [final vfsList calls register_flags sqlite3_demovfs engine fst].
  split; [| split].
  - destruct (vfs_register_cases (demovfs w) 0 (vfsList w))
      as [(_ & _ & _ & Hreg) | (Hfail & _)].
    + exact Hreg.
    + rewrite Hfail in Hok. discriminate Hok.
  - reflexivity.
  - intros (f & Hin & Hnz). cbn [In] in Hin.
    destruct Hin as [<- | []]. now apply Hnz.
Qed.

Lemma init_registers_without_default_request_witness :
  registered (fst (sqlite3_demovfs engine w_unix))
             (vfsList (after OpInit w_unix)) = true /\
  register_flags (calls (run engine sqlite3_os_init w_unix)) = [0] /\
  ~ requests_default (calls (run engine sqlite3_os_init w_unix)).
Proof.
  apply (init_registers_without_default_request w_unix). reflexivity.
Defined.

(** C2 as stated fails.  With another backend as the default, the call
    returns 0 and registers the descriptor, but the default stays with
    the other backend and no registration asked for it; with no room in
    the registry the call returns 0 and the descriptor is not registered
    at all. *)
Lemma init_marks_default_counterexample :
  (retval (run engine sqlite3_os_init w_unix) = 0 /\
   registered demo_vfs (vfsList (after OpInit w_unix)) = true /\
   vfsDefault (vfsList (after OpInit w_unix)) = Some "unix"%string /\
   ~ is_default demo_vfs (vfsList (after OpInit w_unix)) /\
   ~ requests_default (calls (run engine sqlite3_os_init w_unix)))
  /\
  (retval (run engine sqlite3_os_init w_full) = 0 /\
   registered demo_vfs (vfsList (after OpInit w_full)) = false).
Proof.
  split; [| split; reflexivity].
  split; [reflexivity |].
  split; [reflexivity |].
  split; [reflexivity |].
  split.
  - unfold is_default. cbv. discriminate.
  - intros (f & Hin & Hnz). cbv in Hin.
    destruct Hin as [<- | []]. now apply Hnz.
Qed.

Lemma unlink_absent (n : string) (t : list (string * sqlite3_vfs)) :
  existsb (named n) t = false -> unlink n t = t.
Proof.
  unfold unlink.
  induction t as [| e t IH]; cbn [existsb filter]; intro H.
  - reflexivity.
  - apply orb_false_iff in H. destruct H as [He Ht].
    rewrite He. cbn [negb]. now rewrite IH.
Qed.

Lemma unlink_unlink (n : string) (t : list (string * sqlite3_vfs)) :
  unlink n (unlink n t) = unlink n t.
Proof.
  unfold unlink.
  induction t as [| e t IH]; cbn [filter].
  - reflexivity.
  - destruct (named n e) eqn:He; cbn [negb filter].
    + exact IH.
    + rewrite He. cbn [negb]. now rewrite IH.
Qed.

Lemma unlink_head (d : sqlite3_vfs) (t : list (string * sqlite3_vfs)) :
  unlink (zName d) ((zName d, d) :: t) = unlink (zName d) t.
Proof. unfold unlink. cbn [filter]. now rewrite named_refl. Qed.

(** Registering the same descriptor again, with flag 0, leaves the
    registry as the first registration left it. *)
Lemma vfs_register_again (d : sqlite3_vfs) (r : registry) :
  snd (vfs_register d 0 (snd (vfs_register d 0 r)))
  = snd (vfs_register d 0 r).
Proof.
  unfold vfs_register at 2 3.
  destruct (existsb (named (zName d)) (vfsTable r)) eqn:Hin.
  - cbn [snd]. unfold vfs_register. cbn [vfsTable vfsDefault vfsRoom existsb].
    rewrite named_refl. cbn [orb snd default_after Z.eqb].
    now rewrite unlink_head, unlink_unlink.
  - destruct (vfsRoom r) as [| room] eqn:Hroom.
    + cbn [snd]. unfold vfs_register. now rewrite Hin, Hroom.
    + cbn [snd]. unfold vfs_register.
      cbn [vfsTable vfsDefault vfsRoom existsb].
      rewrite named_refl. cbn [orb snd default_after Z.eqb].
      now rewrite unlink_head, unlink_absent.
Qed.

(** C6, as amended.  Two calls of [sqlite3_os_init] in a row return,
    both with 0, from every starting state; afterwards, provided at
    least one of the two registrations succeeded, the registry holds
    exactly one entry under the backend's name.  The second registration
    leaves the registry as the first one left it: no duplicate entry. *)
Theorem init_twice_entries (w : world) :
  some_registered_ok
    (calls (run engine (run_history [OpInit; OpInit]) w)) = true ->
  retval (run engine (run_history [OpInit; OpInit]) w) = [0; 0] /\
  entries_named (zName (demovfs w))
    (vfsTable (vfsList (final (run engine (run_history [OpInit; OpInit])
                                   w)))) = 1%nat /\
  final (run engine (run_history [OpInit; OpInit]) w) = after OpInit w.
Proof.
  change (final (run engine (run_history [OpInit; OpInit]) w))
    with {| vfsList :=
              snd (vfs_register (demovfs w) 0
                     (snd (vfs_register (demovfs w) 0 (vfsList w))));
            demovfs := demovfs w |}.
  change (some_registered_ok
            (calls (run engine (run_history [OpInit; OpInit]) w)))
    with ((SQLITE_OK =? fst (vfs_register (demovfs w) 0 (vfsList w)))
          || ((SQLITE_OK =?
                 fst (vfs_register (demovfs w) 0
                        (snd (vfs_register (demovfs w) 0 (vfsList w)))))
              || false)).
  change (after OpInit w)
    with {| vfsList := snd (vfs_register (demovfs w) 0 (vfsList w));
            demovfs := demovfs w |}.
  intro Hsome.
  split; [reflexivity |].
  rewrite vfs_register_again. cbn [vfsList].
  split; [| reflexivity].
  destruct (vfs_register_cases (demovfs w) 0 (vfsList w))
    as [(_ & Hone & _) | (Hfail & Hsame & _)].
  - exact Hone.
  - rewrite Hsame, Hfail in Hsome. discriminate Hsome.
Qed.

Lemma init_twice_entries_witness :
  retval (run engine (run_history [OpInit; OpInit]) w_unix) = [0; 0] /\
  entries_named (zName (demovfs w_unix))
    (vfsTable (vfsList (final (run engine (run_history [OpInit; OpInit])
                                   w_unix)))) = 1%nat /\
  final (run engine (run_history [OpInit; OpInit]) w_unix)
  = after OpInit w_unix.
Proof.
  apply (init_twice_entries w_unix). reflexivity.
Defined.

(** C6 as stated fails.  In a registry without room, both calls return 0
    and leave no entry under the backend's name. *)
Lemma init_twice_counterexample :
  retval (run engine (run_history [OpInit; OpInit]) w_full) = [0; 0] /\
  entries_named (zName (demovfs w_full))
    (vfsTable (vfsList (final (run engine (run_history [OpInit; OpInit])
                                   w_full)))) = 0%nat /\
  entries_named (zName (demovfs w_full))
    (vfsTable (vfsList (final (run engine (run_history [OpInit; OpInit])
                                   w_full)))) <> 1%nat.
Proof.
  split; [reflexivity |]. split; [reflexivity |].
  cbv. discriminate.
Qed.

End EngineFacts.

(** Three rounds on the engine, from the fresh world. *)
Lemma rounds_all_return_success_witness :
  retval (run Engine.engine (run_history (rounds 3)) Engine.w_fresh)
  = repeat 0 (2 * 3).
Proof.
  apply (@rounds_all_return_success _ _ Engine.engine 3%nat Engine.w_fresh).
  lia.
Defined.

(** * Sequences of hook calls, for every host *)

Section HistoryFacts.

Variable vfs_ptr : Type.
Variable W : Type.
Variable E : host vfs_ptr W.

Lemma run_history_cons (o : op) (h : list op) (w : W) :
  run E (run_history (o :: h)) w =
  {| retval := retval (run E (op_prog o) w)
               :: retval (run E (run_history h) (final (run E (op_prog o) w)));
     final := final (run E (run_history h) (final (run E (op_prog o) w)));
     calls := calls (run E (op_prog o) w)
              ++ calls (run E (run_history h) (final (run E (op_prog o) w))) |}.
Proof.
  cbn [run_history]. rewrite run_bind. cbn [retval final calls].
  rewrite run_bind. cbn [run retval final calls].
  now rewrite app_nil_r.
Qed.

Lemma run_history_init (h : list op) (w : W) :
  run E (run_history (OpInit :: h)) w =
  {| retval := 0 :: retval (run E (run_history h) (init_world E w));
     final := final (run E (run_history h) (init_world E w));
     calls := EvDemovfs (fst (sqlite3_demovfs E w))
              :: EvRegister (fst (sqlite3_demovfs E w)) 0
                   (fst (sqlite3_vfs_register E (fst (sqlite3_demovfs E w)) 0
                           (snd (sqlite3_demovfs E w))))
              :: calls (run E (run_history h) (init_world E w)) |}.
Proof. rewrite run_history_cons. reflexivity. Qed.

Lemma run_history_end (h : list op) (w : W) :
  run E (run_history (OpEnd :: h)) w =
  {| retval := 0 :: retval (run E (run_history h) w);
     final := final (run E (run_history h) w);
     calls := calls (run E (run_history h) w) |}.
Proof. rewrite run_history_cons. reflexivity. Qed.

(** X1. In any sequence of hook calls the external calls are counted by
    the [sqlite3_os_init] calls alone: one constructor call and one
    registration for each, two external calls in all, and none for a
    [sqlite3_os_end]. *)
Theorem history_external_calls (h : list op) (w : W) :
  demovfs_calls (calls (run E (run_history h) w)) = count_init h /\
  List.length (register_statuses (calls (run E (run_history h) w)))
    = count_init h /\
  List.length (calls (run E (run_history h) w)) = (2 * count_init h)%nat.
Proof.
  revert w. unfold count_init.
  induction h as [| [|] h IH]; intro w.
  - repeat split.
  - rewrite run_history_init.
    cbn [calls demovfs_calls register_statuses List.length filter is_init].
    destruct (IH (init_world E w)) as (Hd & Hr & Hl).
    rewrite Hd, Hr, Hl. repeat split; lia.
  - rewrite run_history_end. cbn [calls filter is_init]. apply IH.
Qed.

(** X2. In any sequence of hook calls every registration comes right
    after the constructor call whose result it submits, and it is
    submitted with flag 0. *)
Theorem history_calls_are_init_pairs (h : list op) (w : W) :
  init_pairs (calls (run E (run_history h) w)).
Proof.
  revert w.
  induction h as [| [|] h IH]; intro w.
  - constructor.
  - rewrite run_history_init. cbn [calls]. constructor. apply IH.
  - rewrite run_history_end. cbn [calls]. apply IH.
Qed.

(** X3. The [sqlite3_os_end] calls of a sequence can be left out: the
    final state and the external calls made are those of the sequence of
    its [sqlite3_os_init] calls. *)
Theorem history_without_ends (h : list op) (w : W) :
  final (run E (run_history h) w)
    = final (run E (run_history (without_ends h)) w) /\
  calls (run E (run_history h) w)
    = calls (run E (run_history (without_ends h)) w).
Proof.
  revert w. unfold without_ends.
  induction h as [| [|] h IH]; intro w.
  - split; reflexivity.
  - cbn [filter is_init]. rewrite !run_history_init. cbn [final calls].
    destruct (IH (init_world E w)) as [Hf Hc].
    now rewrite Hf, Hc.
  - cbn [filter is_init]. rewrite run_history_end. cbn [final calls].
    apply IH.
Qed.

(** X4. The state after a sequence of hook calls depends on the
    sequence only through the number of its [sqlite3_os_init] calls: it
    is the state that many runs of [sqlite3_os_init] lead to. *)
Theorem history_final_state (h : list op) (w : W) :
  final (run E (run_history h) w) = Nat.iter (count_init h) (init_world E) w.
Proof.
  revert w. unfold count_init.
  induction h as [| [|] h IH]; intro w.
  - reflexivity.
  - rewrite run_history_init.
    cbn [final filter is_init List.length].
    rewrite IH. symmetry. apply Nat.iter_succ_r.
  - rewrite run_history_end. cbn [final filter is_init]. apply IH.
Qed.

End HistoryFacts.

(** X5. The status the registration reports has no influence: with the
    status replaced by any other, a sequence of hook calls gives the same
    statuses of the hooks and the same final state. *)
Theorem history_ignores_register_status
    (vfs_ptr W : Type) (E : host vfs_ptr W)
    (status : vfs_ptr -> Z -> W -> Z) (h : list op) (w : W) :
  retval (run (with_status status E) (run_history h) w)
    = retval (run E (run_history h) w) /\
  final (run (with_status status E) (run_history h) w)
    = final (run E (run_history h) w).
Proof.
  revert w.
  induction h as [| [|] h IH]; intro w.
  - split; reflexivity.
  - rewrite !run_history_init. cbn [retval final].
    change (init_world (with_status status E) w) with (init_world E w).
    destruct (IH (init_world E w)) as [Hr Hf].
    now rewrite Hr, Hf.
  - rewrite !run_history_end. cbn [retval final].
    destruct (IH w) as [Hr Hf].
    now rewrite Hr, Hf.
Qed.

(** * The lifecycle machine, for every host *)


